(** * greet_fastapi: the two HTTP handlers of [bases/datum/greet_fastapi/core.py]

    The module registers two routes on a FastAPI application:

    - [GET /] is served by [root], which logs one line through the
      process-wide logger and returns [{"message": greeting.hello_world()}];
    - [GET /items/{item_id}] is served by [read_item], which returns
      [{"item_id": item_id, "q": q}].

    The handlers are embedded as computations in a state-and-exception
    monad.  The state holds the world of the two collaborators (the logger
    and the greeting provider, both imported from [components.datum]) and
    the sequence of collaborator calls made so far; an outcome is either a
    returned Python value or a raised exception. *)

From Stdlib Require Import Ascii String.
From stdpp Require Import gmap strings list.

Open Scope string_scope.
Open Scope Z_scope.
Open Scope list_scope.

(** ** Python values *)

(** The Python objects that flow through the handlers: [None], integers
    (unbounded), strings, and dictionaries with string keys. *)
#[warnings="-register-all"]
Inductive value : Type :=
  | VNone
  | VInt (n : Z)
  | VStr (s : string)
  | VDict (d : gmap string value).

(** ** Outcomes and the handler monad *)

(** A Python call either returns a value or raises an exception. *)
Inductive outcome (E A : Type) : Type :=
  | Return (a : A)
  | Raise (e : E).
Arguments Return {E A} a.
Arguments Raise {E A} e.

(** A computation over a state [S] that may raise an exception of type [E]. *)
Definition M (S E A : Type) : Type := S → S * outcome E A.

Definition ret {S E A} (a : A) : M S E A := λ s, (s, Return a).

Definition bind {S E A B} (m : M S E A) (k : A → M S E B) : M S E B :=
  λ s, match m s with
       | (s', Return a) => k a s'
       | (s', Raise e) => (s', Raise e)
       end.

Declare Scope py_scope.
Delimit Scope py_scope with py.
Notation "'let*' x ':=' m 'in' k" := (bind m (λ x, k))
  (at level 10, x binder, m at level 100, k at level 200) : py_scope.
Notation "m ';;' k" := (bind m (λ _, k))
  (at level 100, k at level 200, right associativity) : py_scope.

(** ** Collaborators *)

(** A call on a collaborator transforms the collaborators' world and
    returns or raises. *)
Definition call (world exn : Type) : Type := world → world * outcome exn value.

(** The logging handle returned by [get_logger]: the handlers only use its
    [info] method, called with a message string. *)
Record Logger (world exn : Type) : Type := MkLogger {
  info : string → call world exn
}.
Arguments MkLogger {world exn} info.
Arguments info {world exn} l msg w.

(** The calls a handler makes on its collaborators, in program order. *)
Inductive event : Type :=
  | CallInfo (msg : string)
  | CallHelloWorld.

Global Instance event_eq_dec : EqDecision event.
Proof. solve_decision. Defined.

(** The state a handler runs in. *)
Record state (world : Type) : Type := MkState {
  collab : world;
  calls : list event
}.
Arguments MkState {world} collab calls.
Arguments collab {world} s.
Arguments calls {world} s.

Definition is_info (ev : event) : bool :=
  match ev with CallInfo _ => true | CallHelloWorld => false end.

Definition is_hello_world (ev : event) : bool :=
  match ev with CallInfo _ => false | CallHelloWorld => true end.

(** Number of log emissions, resp. greeting-provider invocations, in a
    sequence of calls. *)
Definition count_info (l : list event) : nat := length (filter is_info l).
Definition count_hello_world (l : list event) : nat :=
  length (filter is_hello_world l).

(** A greeting-provider call is in order when the call just before it is a
    log call; [logged] tells whether the call before the first one of [l]
    was a log call. *)
Fixpoint greeting_follows_log (logged : bool) (l : list event) : bool :=
  match l with
  | [] => true
  | CallInfo _ :: l' => greeting_follows_log true l'
  | CallHelloWorld :: l' => logged && greeting_follows_log false l'
  end.

(** A direct call of one of the two handlers, with the arguments the
    caller passes. *)
Inductive invocation : Type :=
  | InvokeRoot
  | InvokeReadItem (item_id : value) (q : option value).

Definition is_root_invocation (c : invocation) : bool :=
  match c with InvokeRoot => true | InvokeReadItem _ _ => false end.

(** ** The HTTP surface *)

(** A request to one of the two registered routes.  For the item route the
    path segment is the raw text of the URL; the query parameter [q] may be
    missing. *)
Inductive request : Type :=
  | GetRoot
  | GetItem (item_id : string) (q : option string).

(** What the framework answers: the serialized result of a handler, an
    error generated by the input-validation layer, or an exception left to
    the generic error path. *)
Inductive response (exn : Type) : Type :=
  | Response (status : Z) (body : value)
  | ValidationError (status : Z)
  | Unhandled (e : exn).
Arguments Response {exn} status body.
Arguments ValidationError {exn} status.
Arguments Unhandled {exn} e.

Definition status_of {exn} (r : response exn) : option Z :=
  match r with
  | Response st _ => Some st
  | ValidationError st => Some st
  | Unhandled _ => None
  end.

(** ** Sample collaborators

    A concrete world used to run the handlers: the lines written by the
    logger and the number of greetings computed so far. *)
Module Sample.

Record world : Type := MkWorld {
  log_lines : list (string * string);
  greetings : nat
}.

Definition exn : Type := string.

Definition empty_world : world := MkWorld [] 0.

(** A logger that appends [(name, msg)] to the log and returns [None]. *)
Definition get_logger (name : string) : Logger world exn :=
  MkLogger (λ msg w,
    (MkWorld (log_lines w ++ [(name, msg)]) (greetings w), Return VNone)).

(** A logger whose [info] raises without writing anything. *)
Definition broken_logger (name : string) : Logger world exn :=
  MkLogger (λ msg w, (w, Raise ("OSError: " ++ name)%string)).

(** A greeting provider returning the literal greeting. *)
Definition hello_world : call world exn :=
  λ w, (w, Return (VStr "Hello World")).

(** A computed greeting: it counts its invocations and numbers its
    answer. *)
Definition counting_hello_world : call world exn :=
  λ w, (MkWorld (log_lines w) (S (greetings w)),
        Return (VStr (match greetings w with
                      | O => "Hello World"
                      | S _ => "Hello again"
                      end))).

(** A greeting provider that raises. *)
Definition failing_hello_world : call world exn :=
  λ w, (w, Raise "RuntimeError: greeting").

(** Decimal path segments: an optional minus sign followed by at least
    one digit. *)
Definition digit_of (a : ascii) : option Z :=
  let n := Z.of_nat (nat_of_ascii a) in
  if bool_decide (48 ≤ n ≤ 57) then Some (n - 48) else None.

Fixpoint digits (s : string) (acc : Z) : option Z :=
  match s with
  | EmptyString => Some acc
  | String a s' =>
      match digit_of a with
      | Some d => digits s' (10 * acc + d)
      | None => None
      end
  end.

Definition parse_decimal (s : string) : option Z :=
  match s with
  | EmptyString => None
  | String "-"%char EmptyString => None
  | String "-"%char s' => Z.opp <$> digits s' 0
  | _ => digits s 0
  end.

(** A logger that writes like [get_logger] and returns the message
    instead of [None]. *)
Definition echo_logger (name : string) : Logger world exn :=
  MkLogger (λ msg w,
    (MkWorld (log_lines w ++ [(name, msg)]) (greetings w),
     Return (VStr msg))).

(** A greeting provider that returns [None]. *)
Definition none_hello_world : call world exn :=
  λ w, (w, Return VNone).

Definition initial : state world := MkState empty_world [].

End Sample.

(** ** The handlers *)

Section Handlers.

(** The two imports from [components.datum] are not part of this module:
    [get_logger] and [greeting.hello_world] are taken as given, over an
    arbitrary world and an arbitrary type of exceptions. *)
Context {world exn : Type}.
Variable get_logger : string → Logger world exn.
Variable hello_world : call world exn.

Local Open Scope py_scope.

Local Abbreviation handler := (M (state world) exn value).

(** [logger = get_logger("greet-FastAPI-logger")] *)
Definition logger : Logger world exn := get_logger "greet-FastAPI-logger".

(** A call of [l.info(msg)]: the call is recorded, then the logger runs. *)
Definition call_info (l : Logger world exn) (msg : string) : handler :=
  λ s, let '(w, r) := info l msg (collab s) in
       (MkState w (calls s ++ [CallInfo msg]), r).

(** A call of [greeting.hello_world()]. *)
Definition call_hello_world : handler :=
  λ s, let '(w, r) := hello_world (collab s) in
       (MkState w (calls s ++ [CallHelloWorld]), r).

Definition root_log_message : string :=
  "The FastAPI root endpoint was called.".

(** [def root() -> dict] *)
Definition root : handler :=
  call_info logger root_log_message ;;
  let* g := call_hello_world in
  ret (VDict {[ "message" := g ]}).

(** [def read_item(item_id: int, q: Union[str, None] = None)]: an
    argument [q] that is not passed takes the default [None]. *)
Definition read_item (item_id : value) (q : option value) : handler :=
  let q := default VNone q in
  ret (VDict (<["q" := q]> (<["item_id" := item_id]> ∅))).

(** Two consecutive invocations of a handler; each outcome is handed
    back to the caller, and the second invocation starts from the state
    the first one left. *)
Definition twice {A} (h : M (state world) exn A)
    : state world → state world * (outcome exn A * outcome exn A) :=
  λ s, let '(s1, o1) := h s in
       let '(s2, o2) := h s1 in
       (s2, (o1, o2)).

(** *** The framework around the handlers *)

(** The coercion of a path segment to [int], and the status of the
    response generated when it fails. *)
Variable validate_int : string → option Z.
Variable client_error : Z.

(** Modelled from the spec: the host framework's layer around a handler
    (FastAPI: routing, input validation, response), which is not among
    the repository's sources.  A handler that returns yields status 200
    with the returned mapping as body; an exception is left to the
    generic error path. *)
Definition respond (r : state world * outcome exn value)
    : state world * response exn :=
  match r with
  | (s, Return body) => (s, Response 200 body)
  | (s, Raise e) => (s, Unhandled e)
  end.

(** Modelled from the spec: the framework's dispatch of a request to the
    handler registered for its route (not among the repository's
    sources).  On the item route the path segment must validate as an
    integer ([item_id: int]), otherwise the framework answers with a
    client error before the handler runs; a query parameter [q] that is
    present is passed as a string. *)
Definition dispatch (h_root : handler)
    (h_item : value → option value → handler) (req : request)
    : state world → state world * response exn :=
  λ s, match req with
       | GetRoot => respond (h_root s)
       | GetItem seg q =>
           match validate_int seg with
           | Some n => respond (h_item (VInt n) (VStr <$> q) s)
           | None => (s, ValidationError client_error)
           end
       end.

(** [@app.get("/")] and [@app.get("/items/{item_id}")] *)
Definition app : request → state world → state world * response exn :=
  dispatch root read_item.

(** The state after a sequence of requests has been served. *)
Definition after (history : list request) (s : state world) : state world :=
  foldl (λ st req, (app req st).1) s history.

(** The outcome of [root] in terms of the outcome of the greeting
    provider. *)
Definition message_of (g : outcome exn value) : outcome exn value :=
  match g with
  | Return v => Return (VDict {[ "message" := v ]})
  | Raise e => Raise e
  end.

(** The body [{"item_id": item_id, "q": q}] for an integer [item_id] and
    a [q] that is a string or missing. *)
Definition item_body (item_id : Z) (q : option string) : value :=
  VDict {[ "item_id" := VInt item_id; "q" := from_option VStr VNone q ]}.

(** The answer of the root route for an outcome of the greeting
    provider: 200 with the greeting under ["message"], or the exception
    on its way to the generic error path. *)
Definition root_response (g : outcome exn value) : response exn :=
  match g with
  | Return v => Response 200 (VDict {[ "message" := v ]})
  | Raise e => Unhandled e
  end.

(** The handler a direct call runs. *)
Definition invoke (c : invocation) : handler :=
  match c with
  | InvokeRoot => root
  | InvokeReadItem item_id q => read_item item_id q
  end.

(** The state after a sequence of direct calls, each starting where the
    one before it ended, whatever its outcome. *)
Definition run (cs : list invocation) (s : state world) : state world :=
  foldl (λ st c, (invoke c st).1) s cs.

(** *** Auxiliary facts *)

Lemma count_info_app (l l' : list event) :
  count_info (l ++ l') = (count_info l + count_info l')%nat.
Proof. unfold count_info. by rewrite filter_app, length_app. Qed.

Lemma count_hello_world_app (l l' : list event) :
  count_hello_world (l ++ l') =
  (count_hello_world l + count_hello_world l')%nat.
Proof. unfold count_hello_world. by rewrite filter_app, length_app. Qed.

(** The three ways an invocation of [root] can go, by the outcome of its
    two collaborator calls. *)
Lemma root_logger_raises (s : state world) (w1 : world) (e : exn) :
  info logger root_log_message (collab s) = (w1, Raise e) →
  root s = (MkState w1 (calls s ++ [CallInfo root_log_message]), Raise e).
Proof.
  intros Hlog. unfold root, bind, call_info. by rewrite Hlog.
Qed.

Lemma root_greeting_raises (s : state world) (w1 w2 : world)
    (r : value) (e : exn) :
  info logger root_log_message (collab s) = (w1, Return r) →
  hello_world w1 = (w2, Raise e) →
  root s = (MkState w2
              (calls s ++ [CallInfo root_log_message; CallHelloWorld]),
            Raise e).
Proof.
  intros Hlog Hgreet.
  unfold root, bind, call_info, call_hello_world.
  rewrite Hlog. simpl. rewrite Hgreet. by rewrite <- app_assoc.
Qed.

Lemma root_returns (s : state world) (w1 w2 : world) (r g : value) :
  info logger root_log_message (collab s) = (w1, Return r) →
  hello_world w1 = (w2, Return g) →
  root s = (MkState w2
              (calls s ++ [CallInfo root_log_message; CallHelloWorld]),
            Return (VDict {[ "message" := g ]})).
Proof.
  intros Hlog Hgreet.
  unfold root, bind, call_info, call_hello_world, ret.
  rewrite Hlog. simpl. rewrite Hgreet. by rewrite <- app_assoc.
Qed.

Lemma root_after_log (s : state world) (w1 w2 : world) (r : value)
    (g : outcome exn value) :
  info logger root_log_message (collab s) = (w1, Return r) →
  hello_world w1 = (w2, g) →
  root s = (MkState w2
              (calls s ++ [CallInfo root_log_message; CallHelloWorld]),
            message_of g).
Proof.
  intros Hlog Hgreet. destruct g as [v|e]; simpl.
  - by eapply root_returns.
  - by eapply root_greeting_raises.
Qed.

(** The calls made by one invocation of [root]. *)
Lemma root_calls (s : state world) :
  ∃ rest, calls (root s).1 = calls s ++ CallInfo root_log_message :: rest
          ∧ (rest = [] ∨ rest = [CallHelloWorld]).
Proof.
  destruct (info logger root_log_message (collab s)) as [w1 [r|e]] eqn:Hlog.
  - destruct (hello_world w1) as [w2 g] eqn:Hgreet.
    rewrite (root_after_log s w1 w2 r g Hlog Hgreet). simpl. eauto.
  - rewrite (root_logger_raises s w1 e Hlog). simpl. eauto.
Qed.

(** The state after two invocations is the state after the second. *)
Lemma twice_state {A} (h : M (state world) exn A) (s : state world) :
  (twice h s).1 = (h (h s).1).1.
Proof.
  unfold twice. destruct (h s) as [s1 o1]. simpl.
  by destruct (h s1) as [s2 o2].
Qed.

(** [read_item] returns its two arguments under the keys ["item_id"] and
    ["q"], whatever they are, and leaves the state alone. *)
Lemma read_item_run (item_id : value) (q : option value)
    (s : state world) :
  read_item item_id q s =
  (s, Return (VDict {[ "item_id" := item_id; "q" := default VNone q ]})).
Proof.
  unfold read_item, ret. reflexivity.
Qed.

(** *** The root route *)

(** C1: on the root route, whenever the greeting provider returns a
    string [v] (the log call before it having returned), the handler
    returns the mapping [{"message": v}] and the route answers with
    status 200 and exactly that body. *)
Theorem root_returns_greeting (s : state world) (w1 w2 : world)
    (r : value) (v : string) :
  info logger root_log_message (collab s) = (w1, Return r) →
  hello_world w1 = (w2, Return (VStr v)) →
  ∃ s', root s = (s', Return (VDict {[ "message" := VStr v ]}))
        ∧ app GetRoot s =
          (s', Response 200 (VDict {[ "message" := VStr v ]})).
Proof.
  intros Hlog Hgreet. eexists. split.
  - by eapply root_returns.
  - unfold app, dispatch. by erewrite root_returns.
Qed.

(** C4: every invocation of [root] makes exactly one call of the
    logger's [info] method, with the fixed message; the only other thing
    it does is to ask the greeting provider for its value, at most once,
    so that with a greeting provider that changes nothing the whole
    effect of the invocation on the world is that of the log call. *)
Theorem root_one_log_emission (s : state world) :
  count_info (calls (root s).1) = S (count_info (calls s))
  ∧ (calls (root s).1 = calls s ++ [CallInfo root_log_message]
     ∨ calls (root s).1 =
       calls s ++ [CallInfo root_log_message; CallHelloWorld])
  ∧ ((∀ w, (hello_world w).1 = w) →
     collab (root s).1 = (info logger root_log_message (collab s)).1).
Proof.
  split; [|split].
  - destruct (root_calls s) as (rest & -> & [-> | ->]);
      rewrite count_info_app; unfold count_info; simpl; lia.
  - destruct (root_calls s) as (rest & -> & [-> | ->]); auto.
  - intros Hpure.
    destruct (info logger root_log_message (collab s))
      as [w1 [r|e]] eqn:Hlog.
    + destruct (hello_world w1) as [w2 g] eqn:Hgreet.
      rewrite (root_after_log s w1 w2 r g Hlog Hgreet). simpl.
      specialize (Hpure w1). by rewrite Hgreet in Hpure.
    + by rewrite (root_logger_raises s w1 e Hlog).
Qed.

(** C6: [root] catches nothing.  It raises [e] exactly when the log call
    raises [e], or the log call returns and the greeting provider raises
    [e]; the exception then leaves the handler as it is and reaches the
    framework's generic error path. *)
Theorem root_propagates_exceptions (s : state world) (e : exn) :
  ((root s).2 = Raise e ↔
     (info logger root_log_message (collab s)).2 = Raise e
     ∨ (∃ r, (info logger root_log_message (collab s)).2 = Return r
             ∧ (hello_world
                  (info logger root_log_message (collab s)).1).2
               = Raise e))
  ∧ ((root s).2 = Raise e → (app GetRoot s).2 = Unhandled e).
Proof.
  split.
  - destruct (info logger root_log_message (collab s))
      as [w1 [r|e1]] eqn:Hlog; simpl.
    + destruct (hello_world w1) as [w2 g] eqn:Hgreet.
      rewrite (root_after_log s w1 w2 r g Hlog Hgreet). simpl.
      destruct g as [v|e2]; simpl; split.
      * discriminate.
      * intros [? | (r' & _ & ?)]; discriminate.
      * intros [= ->]. right. eauto.
      * intros [? | (r' & _ & ?)]; [discriminate | done].
    + rewrite (root_logger_raises s w1 e1 Hlog). simpl. split.
      * auto.
      * intros [? | (r' & ? & _)]; [done | discriminate].
  - unfold app, dispatch, respond.
    destruct (root s) as [s' [v|e']]; simpl; [discriminate|].
    by intros [= ->].
Qed.

(** The root route runs [root] on the state it is given. *)
Lemma app_root_state (s : state world) : (app GetRoot s).1 = (root s).1.
Proof. unfold app, dispatch, respond. by destruct (root s) as [s' [v|e]]. Qed.

Lemma app_root_after_log (s : state world) (w1 w2 : world) (r : value)
    (g : outcome exn value) :
  info logger root_log_message (collab s) = (w1, Return r) →
  hello_world w1 = (w2, g) →
  app GetRoot s =
    (MkState w2 (calls s ++ [CallInfo root_log_message; CallHelloWorld]),
     root_response g).
Proof.
  intros Hlog Hgreet. unfold app, dispatch.
  rewrite (root_after_log s w1 w2 r g Hlog Hgreet). by destruct g.
Qed.

Lemma after_root_twice (s : state world) :
  after [GetRoot; GetRoot] s = (twice root s).1.
Proof.
  rewrite twice_state. unfold after. cbn [foldl].
  by rewrite !app_root_state.
Qed.

(** C7: two consecutive requests to the root route always call the logger
    exactly twice; when both log calls return, they call the greeting
    provider exactly twice as well, in the order log, greeting, log,
    greeting, and each request is answered with what the greeting
    provider gave to that very invocation: nothing is kept from the first
    one.  The state the two requests leave is the one two consecutive
    invocations of [root] leave. *)
Theorem root_twice_no_caching (s : state world) :
  count_info (calls (after [GetRoot; GetRoot] s)) =
    S (S (count_info (calls s)))
  ∧ after [GetRoot; GetRoot] s = (twice root s).1
  ∧ (∀ (w1 w2 w3 w4 : world) (r1 r2 : value) (g1 g2 : outcome exn value),
       info logger root_log_message (collab s) = (w1, Return r1) →
       hello_world w1 = (w2, g1) →
       info logger root_log_message w2 = (w3, Return r2) →
       hello_world w3 = (w4, g2) →
       calls (after [GetRoot; GetRoot] s) =
         calls s ++ [CallInfo root_log_message; CallHelloWorld;
                     CallInfo root_log_message; CallHelloWorld]
       ∧ count_hello_world (calls (after [GetRoot; GetRoot] s)) =
         S (S (count_hello_world (calls s)))
       ∧ collab (after [GetRoot; GetRoot] s) = w4
       ∧ (app GetRoot s).2 = root_response g1
       ∧ (app GetRoot (app GetRoot s).1).2 = root_response g2
       ∧ (twice root s).2 = (message_of g1, message_of g2)).
Proof.
  split; [|split].
  - rewrite after_root_twice, twice_state.
    destruct (root_calls (root s).1) as (rest2 & -> & Hrest2).
    destruct (root_calls s) as (rest1 & -> & Hrest1).
    rewrite !count_info_app. unfold count_info.
    destruct Hrest1 as [-> | ->], Hrest2 as [-> | ->]; simpl; lia.
  - apply after_root_twice.
  - intros w1 w2 w3 w4 r1 r2 g1 g2 Hlog1 Hgreet1 Hlog2 Hgreet2.
    assert (Hrun : twice root s =
      (MkState w4 (calls s ++ [CallInfo root_log_message; CallHelloWorld;
                               CallInfo root_log_message; CallHelloWorld]),
       (message_of g1, message_of g2))).
    { unfold twice.
      rewrite (root_after_log s w1 w2 r1 g1 Hlog1 Hgreet1).
      erewrite root_after_log by (simpl; eassumption).
      simpl. by rewrite <- app_assoc. }
    rewrite after_root_twice, Hrun.
    rewrite (app_root_after_log s w1 w2 r1 g1 Hlog1 Hgreet1).
    cbn [fst snd].
    erewrite app_root_after_log by (cbn [collab]; eassumption).
    cbn [fst snd calls collab]. repeat split.
    rewrite count_hello_world_app. unfold count_hello_world. simpl. lia.
Qed.

(** C10: in every invocation of [root] the log call comes first and the
    greeting provider is called after it, if at all.  When the greeting
    provider raises, the invocation ends with the log call still
    recorded and with the world the greeting provider left from the
    world the logger had produced. *)
Theorem root_logs_before_greeting (s : state world) :
  (∃ rest,
      calls (root s).1 = calls s ++ CallInfo root_log_message :: rest
      ∧ (CallInfo root_log_message ∉ rest)
      ∧ (rest = [] ∨ rest = [CallHelloWorld]))
  ∧ (∀ w1 w2 r e,
       info logger root_log_message (collab s) = (w1, Return r) →
       hello_world w1 = (w2, Raise e) →
       root s =
         (MkState w2
            (calls s ++ [CallInfo root_log_message; CallHelloWorld]),
          Raise e)).
Proof.
  split.
  - destruct (root_calls s) as (rest & Hcalls & Hrest).
    exists rest. split; [done|]. split; [|done].
    destruct Hrest as [-> | ->].
    + apply not_elem_of_nil.
    + intros Hin. apply list_elem_of_singleton in Hin. discriminate.
  - intros w1 w2 r e. apply root_greeting_raises.
Qed.

(** *** The item route *)

(** What the item route answers, in any state. *)
Lemma app_item_run (seg : string) (q : option string) (s : state world) :
  app (GetItem seg q) s =
  (s, match validate_int seg with
      | Some n => Response 200 (item_body n q)
      | None => ValidationError client_error
      end).
Proof.
  unfold app, dispatch. destruct (validate_int seg) as [n|]; [|done].
  rewrite read_item_run. by destruct q.
Qed.

(** The handler itself checks nothing: called with a value that is no
    integer, it echoes it like any other. *)
Lemma read_item_checks_nothing (s : state world) :
  read_item (VStr "abc") None s =
  (s, Return (VDict {[ "item_id" := VStr "abc"; "q" := VNone ]})).
Proof. apply read_item_run. Qed.

(** C2: for every integer [item_id] and every [q] that is a string or
    missing, the handler returns exactly [{"item_id": item_id, "q": q}],
    and the item route, on a path segment that validates to [item_id],
    answers with status 200 and that body. *)
Theorem read_item_echoes (item_id : Z) (q : option string)
    (s : state world) :
  (read_item (VInt item_id) (VStr <$> q) s).2 =
    Return (VDict {[ "item_id" := VInt item_id;
                     "q" := from_option VStr VNone q ]})
  ∧ (∀ seg, validate_int seg = Some item_id →
       (app (GetItem seg q) s).2 =
         Response 200
           (VDict {[ "item_id" := VInt item_id;
                     "q" := from_option VStr VNone q ]})).
Proof.
  split.
  - rewrite read_item_run. by destruct q.
  - intros seg Hseg. rewrite app_item_run, Hseg. done.
Qed.

(** C3: for every integer [item_id], when [q] is not supplied the
    handler returns [{"item_id": item_id, "q": None}]: the key ["q"] is
    in the mapping, bound to [None]. *)
Theorem read_item_q_absent (item_id : Z) (s : state world) :
  ∃ d : gmap string value,
    (read_item (VInt item_id) None s).2 = Return (VDict d)
    ∧ d = {[ "item_id" := VInt item_id; "q" := VNone ]}
    ∧ d !! "q" = Some VNone
    ∧ "q" ∈ dom d
    ∧ (∀ seg, validate_int seg = Some item_id →
         (app (GetItem seg None) s).2 = Response 200 (VDict d)).
Proof.
  eexists. split; [by rewrite read_item_run|].
  split; [done|]. split; [done|]. split.
  - apply elem_of_dom. by eexists.
  - intros seg Hseg. by rewrite app_item_run, Hseg.
Qed.

(** C5: on the item route, a path segment that does not validate as an
    integer is answered by the framework with its client-error status,
    whatever handlers are registered and without a change of state: no
    handler runs, and the status is in the 4xx range, not 200. *)
Theorem item_route_rejects_non_integer (h_root : M (state world) exn value)
    (h_item : value → option value → M (state world) exn value)
    (seg : string) (q : option string) (s : state world) :
  400 ≤ client_error ≤ 499 →
  validate_int seg = None →
  dispatch h_root h_item (GetItem seg q) s =
    (s, ValidationError client_error)
  ∧ app (GetItem seg q) s = (s, ValidationError client_error)
  ∧ ∃ st, status_of (app (GetItem seg q) s).2 = Some st
          ∧ 400 ≤ st ≤ 499 ∧ st ≠ 200.
Proof.
  intros Hrange Hseg. split; [|split].
  - unfold dispatch. by rewrite Hseg.
  - unfold app, dispatch. by rewrite Hseg.
  - exists client_error. rewrite app_item_run, Hseg. simpl.
    split; [done|]. split; [done|]. lia.
Qed.

(** C8: the result of [read_item] is a function of its arguments alone:
    two invocations with the same [item_id] and [q] return the same
    body, in whatever states they run, and the item route gives the
    same answer to the same request after any two histories. *)
Theorem read_item_deterministic (item_id : value) (q : option value)
    (s1 s2 : state world) :
  (read_item item_id q s1).2 = (read_item item_id q s2).2
  ∧ (∀ (seg : string) (qs : option string) (h1 h2 : list request),
       (app (GetItem seg qs) (after h1 s1)).2 =
       (app (GetItem seg qs) (after h2 s2)).2).
Proof.
  split.
  - by rewrite !read_item_run.
  - intros seg qs h1 h2. by rewrite !app_item_run.
Qed.

(** C9: an invocation of [read_item] has no side effect: it makes no
    call on the logger or on the greeting provider, and the world is
    the same after it as before. *)
Theorem read_item_no_side_effect (item_id : value) (q : option value)
    (s : state world) :
  (read_item item_id q s).1 = s
  ∧ calls (read_item item_id q s).1 = calls s
  ∧ collab (read_item item_id q s).1 = collab s
  ∧ (∀ (seg : string) (qs : option string),
       (app (GetItem seg qs) s).1 = s).
Proof.
  split; [by rewrite read_item_run|].
  split; [by rewrite read_item_run|].
  split; [by rewrite read_item_run|].
  intros seg qs. by rewrite app_item_run.
Qed.

(** *** Further properties of the handlers *)

(** The calls made by one direct call of a handler. *)
Lemma invoke_calls (c : invocation) (s : state world) :
  ∃ new, calls (invoke c s).1 = calls s ++ new
         ∧ (new = [] ∧ is_root_invocation c = false
            ∨ is_root_invocation c = true
              ∧ (new = [CallInfo root_log_message]
                 ∨ new = [CallInfo root_log_message; CallHelloWorld])).
Proof.
  destruct c as [|item_id q]; unfold invoke, is_root_invocation.
  - destruct (root_calls s) as (rest & -> & [-> | ->]); eauto 6.
  - rewrite read_item_run. exists []. rewrite app_nil_r. eauto.
Qed.

Lemma run_cons (c : invocation) (cs : list invocation) (s : state world) :
  run (c :: cs) s = run cs (invoke c s).1.
Proof. reflexivity. Qed.

Lemma greeting_follows_log_mono (l : list event) :
  greeting_follows_log false l = true → greeting_follows_log true l = true.
Proof. destruct l as [|[m|] l]; simpl; [done | done | discriminate]. Qed.

Lemma return_dict_inj (d1 d2 : gmap string value) :
  @Return exn value (VDict d1) = Return (VDict d2) → d1 = d2.
Proof. intros Heq. by injection Heq. Qed.

(** X1: [root] asks the greeting provider exactly once when the log call
    returns, and not at all when the log call raises: then the invocation
    ends with the logger's exception, in the world the logger left. *)
Theorem root_greeting_iff_log_returns (s : state world) :
  match info logger root_log_message (collab s) with
  | (w1, Return _) =>
      count_hello_world (calls (root s).1) = S (count_hello_world (calls s))
  | (w1, Raise e) =>
      root s = (MkState w1 (calls s ++ [CallInfo root_log_message]), Raise e)
      ∧ count_hello_world (calls (root s).1) = count_hello_world (calls s)
  end.
Proof.
  destruct (info logger root_log_message (collab s)) as [w1 [r|e]] eqn:Hlog.
  - destruct (hello_world w1) as [w2 g] eqn:Hgreet.
    rewrite (root_after_log s w1 w2 r g Hlog Hgreet). simpl.
    rewrite count_hello_world_app. unfold count_hello_world. simpl. lia.
  - rewrite (root_logger_raises s w1 e Hlog). split; [done|]. simpl.
    rewrite count_hello_world_app. unfold count_hello_world. simpl. lia.
Qed.

(** X3: [root] hands on whatever the greeting provider returns, string or
    not, unconverted: the returned mapping binds ["message"] to that very
    value and has no other key. *)
Theorem root_passes_any_value (s : state world) (w1 w2 : world)
    (r g : value) :
  info logger root_log_message (collab s) = (w1, Return r) →
  hello_world w1 = (w2, Return g) →
  ∃ d : gmap string value,
    (root s).2 = Return (VDict d)
    ∧ d !! "message" = Some g
    ∧ dom d = {[ "message" ]}
    ∧ (∀ k, k ≠ "message" → d !! k = None).
Proof.
  intros Hlog Hgreet. rewrite (root_returns s w1 w2 r g Hlog Hgreet).
  eexists. split; [reflexivity|]. split; [|split].
  - apply lookup_singleton_eq.
  - apply dom_singleton_L.
  - intros k Hk. by apply lookup_singleton_ne.
Qed.

(** X4: for any two argument values, integers and strings or not,
    [read_item] returns a mapping with exactly the keys ["item_id"] and
    ["q"]; looking them up gives back the arguments, [None] standing for a
    [q] that was not passed. *)
Theorem read_item_body_shape (item_id : value) (q : option value)
    (s : state world) :
  ∃ d : gmap string value,
    (read_item item_id q s).2 = Return (VDict d)
    ∧ d !! "item_id" = Some item_id
    ∧ d !! "q" = Some (default VNone q)
    ∧ dom d = {[ "item_id"; "q" ]}
    ∧ size d = 2%nat
    ∧ (∀ k, k ≠ "item_id" → k ≠ "q" → d !! k = None).
Proof.
  eexists. split; [unfold read_item, ret; reflexivity|].
  split; [done|]. split; [done|]. split; [|split].
  - rewrite !dom_insert_L, dom_empty_L. set_solver.
  - rewrite map_size_insert_None by done.
    by rewrite map_size_insert_None, map_size_empty.
  - intros k Hid Hq.
    rewrite lookup_insert_ne by done. by rewrite lookup_insert_ne.
Qed.

(** X5: the echo of [read_item] loses nothing but the difference between
    a [q] that is missing and a [q] that is [None]: two invocations that
    return equal mappings were given the same [item_id] and the same [q]
    up to that default. *)
Theorem read_item_lossless (item_id item_id' : value)
    (q q' : option value) (s s' : state world) :
  (read_item item_id q s).2 = (read_item item_id' q' s').2 →
  item_id = item_id' ∧ default VNone q = default VNone q'.
Proof.
  rewrite !read_item_run. cbn [snd]. intros Heq.
  apply return_dict_inj in Heq. split.
  - assert (Hlook := f_equal (λ d : gmap string value, d !! "item_id") Heq).
    cbn beta in Hlook. rewrite !lookup_insert_eq in Hlook.
    by injection Hlook.
  - assert (Hlook := f_equal (λ d : gmap string value, d !! "q") Heq).
    cbn beta in Hlook.
    rewrite !(lookup_insert_ne _ "item_id" "q") in Hlook by done.
    rewrite !lookup_singleton_eq in Hlook. by injection Hlook.
Qed.

(** X6: after any sequence of direct calls of the two handlers, with any
    collaborators, the logger has been called once for each call of
    [root] in the sequence, no more and no less, and the greeting provider
    at most that often. *)
Theorem run_log_count (cs : list invocation) (s : state world) :
  count_info (calls (run cs s)) =
    (count_info (calls s) + length (filter is_root_invocation cs))%nat
  ∧ (count_hello_world (calls (run cs s)) ≤
       count_hello_world (calls s)
       + length (filter is_root_invocation cs))%nat.
Proof.
  revert s. induction cs as [|c cs IH]; intros s.
  - simpl. split; lia.
  - rewrite run_cons. destruct (IH (invoke c s).1) as [IHinfo IHgreet].
    rewrite IHinfo. clear IHinfo.
    destruct (invoke_calls c s) as (new & Hnew & Hcase).
    rewrite Hnew in *. rewrite count_info_app.
    rewrite count_hello_world_app in IHgreet.
    destruct Hcase as [[-> Hc] | [Hc [-> | ->]]];
      (rewrite filter_cons; destruct (decide (is_root_invocation c))
         as [Hd|Hd]; rewrite Hc in Hd; simpl in Hd; try done);
      unfold count_info, count_hello_world in *; simpl in *; lia.
Qed.

(** X7: the calls added by any sequence of direct calls of the handlers
    are log calls with the fixed message and greeting-provider calls only,
    and each greeting-provider call comes right after a log call. *)
Theorem run_calls_in_order (cs : list invocation) (s : state world) :
  ∃ new, calls (run cs s) = calls s ++ new
         ∧ greeting_follows_log false new = true
         ∧ Forall (λ ev, ev = CallInfo root_log_message
                         ∨ ev = CallHelloWorld) new.
Proof.
  revert s. induction cs as [|c cs IH]; intros s.
  - exists []. rewrite app_nil_r. split; [done|]. split; [done|].
    constructor.
  - rewrite run_cons.
    destruct (IH (invoke c s).1) as (rest & Hcalls & Hord & Hall).
    destruct (invoke_calls c s) as (new & Hnew & Hcase).
    exists (new ++ rest). rewrite app_assoc, <- Hnew. split; [done|].
    destruct Hcase as [[-> _] | [_ [-> | ->]]]; simpl.
    + done.
    + split; [by apply greeting_follows_log_mono|].
      constructor; [by left | done].
    + split; [done|].
      constructor; [by left|]. constructor; [by right | done].
Qed.

(** X8: calls of [read_item] leave no trace: the state after a sequence
    of direct calls is the state after the calls of [root] in it alone. *)
Theorem run_ignores_read_item (cs : list invocation) (s : state world) :
  run cs s = run (filter is_root_invocation cs) s.
Proof.
  revert s. induction cs as [|c cs IH]; intros s; [done|].
  rewrite run_cons. destruct c as [|item_id q].
  - rewrite filter_cons_True by done. rewrite run_cons. apply IH.
  - rewrite filter_cons_False by (simpl; auto).
    rewrite <- IH. unfold invoke. by rewrite read_item_run.
Qed.

End Handlers.

(** X2: the value returned by [logger.info] is dropped: two loggers whose
    log call leaves the same world and returns, whatever each returns,
    give the same invocation of [root]. *)
Theorem root_ignores_logger_result {world exn : Type}
    (get_logger get_logger' : string → Logger world exn)
    (hello_world : call world exn) (s : state world) (w1 : world)
    (r r' : value) :
  info (logger get_logger) root_log_message (collab s) = (w1, Return r) →
  info (logger get_logger') root_log_message (collab s) = (w1, Return r') →
  root get_logger hello_world s = root get_logger' hello_world s.
Proof.
  intros Hlog Hlog'. destruct (hello_world w1) as [w2 g] eqn:Hgreet.
  rewrite (root_after_log get_logger hello_world s w1 w2 r g Hlog Hgreet).
  by rewrite (root_after_log get_logger' hello_world s w1 w2 r' g
                Hlog' Hgreet).
Qed.

(** ** The handlers at work on the sample collaborators *)

(** [GET /] with the literal greeting: 200 and [{"message": "Hello World"}]. *)
Lemma root_returns_greeting_witness :
  let w1 := Sample.MkWorld
              [("greet-FastAPI-logger", root_log_message)] 0 in
  info (logger Sample.get_logger) root_log_message
    (collab Sample.initial) = (w1, Return VNone)
  ∧ Sample.hello_world w1 = (w1, Return (VStr "Hello World"))
  ∧ ∃ s', root Sample.get_logger Sample.hello_world Sample.initial =
            (s', Return (VDict {[ "message" := VStr "Hello World" ]}))
          ∧ app Sample.get_logger Sample.hello_world
              Sample.parse_decimal 422 GetRoot Sample.initial =
            (s', Response 200 (VDict {[ "message" := VStr "Hello World" ]})).
Proof.
  intros w1. split; [reflexivity|]. split; [reflexivity|].
  apply (root_returns_greeting Sample.get_logger Sample.hello_world
           Sample.parse_decimal 422 Sample.initial w1 w1 VNone
           "Hello World"); reflexivity.
Defined.

(** With the literal greeting, which changes nothing, one invocation of
    [root] leaves one log line and nothing else. *)
Lemma root_one_log_emission_witness :
  (∀ w, (Sample.hello_world w).1 = w)
  ∧ count_info
      (calls (root Sample.get_logger Sample.hello_world Sample.initial).1)
    = 1%nat
  ∧ collab (root Sample.get_logger Sample.hello_world Sample.initial).1 =
    Sample.MkWorld [("greet-FastAPI-logger", root_log_message)] 0.
Proof.
  split; [reflexivity|].
  pose proof (root_one_log_emission Sample.get_logger Sample.hello_world
                Sample.initial) as (Hcount & _ & Hframe).
  split.
  - exact Hcount.
  - rewrite Hframe; reflexivity.
Defined.

(** A greeting provider that raises makes [root] raise the same exception,
    and so does a logger that raises. *)
Lemma root_propagates_exceptions_witness :
  (root Sample.get_logger Sample.failing_hello_world Sample.initial).2 =
    Raise "RuntimeError: greeting"
  ∧ (root Sample.broken_logger Sample.hello_world Sample.initial).2 =
    Raise "OSError: greet-FastAPI-logger".
Proof.
  split.
  - apply (proj1 (root_propagates_exceptions Sample.get_logger
                    Sample.failing_hello_world Sample.parse_decimal 422
                    Sample.initial "RuntimeError: greeting")).
    right. exists VNone. split; reflexivity.
  - apply (proj1 (root_propagates_exceptions Sample.broken_logger
                    Sample.hello_world Sample.parse_decimal 422
                    Sample.initial "OSError: greet-FastAPI-logger")).
    left. reflexivity.
Defined.

(** With the counting greeting provider, the second of two requests to
    the root route is answered with the second greeting. *)
Lemma root_twice_no_caching_witness :
  let line := ("greet-FastAPI-logger", root_log_message) in
  let w1 := Sample.MkWorld [line] 0 in
  let w2 := Sample.MkWorld [line] 1 in
  let w3 := Sample.MkWorld [line; line] 1 in
  let w4 := Sample.MkWorld [line; line] 2 in
  let app := app Sample.get_logger Sample.counting_hello_world
               Sample.parse_decimal 422 in
  let after := after Sample.get_logger Sample.counting_hello_world
                 Sample.parse_decimal 422 in
  info (logger Sample.get_logger) root_log_message
    (collab Sample.initial) = (w1, Return VNone)
  ∧ Sample.counting_hello_world w1 = (w2, Return (VStr "Hello World"))
  ∧ info (logger Sample.get_logger) root_log_message w2 =
    (w3, Return VNone)
  ∧ Sample.counting_hello_world w3 = (w4, Return (VStr "Hello again"))
  ∧ count_info (calls (after [GetRoot; GetRoot] Sample.initial)) = 2%nat
  ∧ count_hello_world (calls (after [GetRoot; GetRoot] Sample.initial)) =
    2%nat
  ∧ (app GetRoot Sample.initial).2 =
    Response 200 (VDict {[ "message" := VStr "Hello World" ]})
  ∧ (app GetRoot (app GetRoot Sample.initial).1).2 =
    Response 200 (VDict {[ "message" := VStr "Hello again" ]}).
Proof.
  intros line w1 w2 w3 w4 app after.
  split; [reflexivity|]. split; [reflexivity|].
  split; [reflexivity|]. split; [reflexivity|].
  pose proof (root_twice_no_caching Sample.get_logger
                Sample.counting_hello_world Sample.parse_decimal 422
                Sample.initial)
    as (Hinfo & _ & Hboth).
  pose proof (Hboth w1 w2 w3 w4 VNone VNone
                (Return (VStr "Hello World"))
                (Return (VStr "Hello again"))
                eq_refl eq_refl eq_refl eq_refl)
    as (_ & Hgreet & _ & Hfirst & Hsecond & _).
  split; [exact Hinfo|]. split; [exact Hgreet|].
  split; [exact Hfirst | exact Hsecond].
Defined.

(** When the greeting provider raises, the line written by the logger is
    still in the log. *)
Lemma root_logs_before_greeting_witness :
  let w1 := Sample.MkWorld
              [("greet-FastAPI-logger", root_log_message)] 0 in
  info (logger Sample.get_logger) root_log_message
    (collab Sample.initial) = (w1, Return VNone)
  ∧ Sample.failing_hello_world w1 = (w1, Raise "RuntimeError: greeting")
  ∧ root Sample.get_logger Sample.failing_hello_world Sample.initial =
    (MkState w1 [CallInfo root_log_message; CallHelloWorld],
     Raise "RuntimeError: greeting")
  ∧ Sample.log_lines
      (collab (root Sample.get_logger Sample.failing_hello_world
                 Sample.initial).1) =
    [("greet-FastAPI-logger", "The FastAPI root endpoint was called.")].
Proof.
  intros w1. split; [reflexivity|]. split; [reflexivity|].
  pose proof (proj2 (root_logs_before_greeting Sample.get_logger
                       Sample.failing_hello_world Sample.initial)
                w1 w1 VNone "RuntimeError: greeting" eq_refl eq_refl)
    as Hrun.
  split.
  - exact Hrun.
  - rewrite Hrun; reflexivity.
Defined.

(** [GET /items/5?q=test]: 200 and [{"item_id": 5, "q": "test"}]. *)
Lemma read_item_echoes_witness :
  Sample.parse_decimal "5" = Some 5
  ∧ (app Sample.get_logger Sample.hello_world Sample.parse_decimal 422
       (GetItem "5" (Some "test")) Sample.initial).2 =
    Response 200 (VDict {[ "item_id" := VInt 5; "q" := VStr "test" ]}).
Proof.
  split; [reflexivity|].
  apply (proj2 (read_item_echoes Sample.get_logger Sample.hello_world
                  Sample.parse_decimal 422 5 (Some "test")
                  Sample.initial) "5").
  reflexivity.
Defined.

(** [GET /items/5]: 200 and [{"item_id": 5, "q": null}]. *)
Lemma read_item_q_absent_witness :
  Sample.parse_decimal "5" = Some 5
  ∧ (app Sample.get_logger Sample.hello_world Sample.parse_decimal 422
       (GetItem "5" None) Sample.initial).2 =
    Response 200 (VDict {[ "item_id" := VInt 5; "q" := VNone ]}).
Proof.
  split; [reflexivity|].
  destruct (read_item_q_absent Sample.get_logger Sample.hello_world
              Sample.parse_decimal 422 5 Sample.initial)
    as (d & _ & Hd & _ & _ & Hroute).
  rewrite <- Hd. apply Hroute. reflexivity.
Defined.

(** [GET /items/abc]: a client error, and no handler has run. *)
Lemma item_route_rejects_non_integer_witness :
  400 ≤ 422 ≤ 499
  ∧ Sample.parse_decimal "abc" = None
  ∧ app Sample.get_logger Sample.hello_world Sample.parse_decimal 422
      (GetItem "abc" None) Sample.initial =
    (Sample.initial, ValidationError 422).
Proof.
  split; [lia|]. split; [reflexivity|].
  apply (item_route_rejects_non_integer Sample.get_logger
           Sample.hello_world Sample.parse_decimal 422
           (root Sample.get_logger Sample.hello_world) read_item
           "abc" None Sample.initial); [lia | reflexivity].
Defined.

(** A logger returning [None] and one returning the message serve the same
    invocation of [root]. *)
Lemma root_ignores_logger_result_witness :
  let w1 := Sample.MkWorld
              [("greet-FastAPI-logger", root_log_message)] 0 in
  info (logger Sample.get_logger) root_log_message
    (collab Sample.initial) = (w1, Return VNone)
  ∧ info (logger Sample.echo_logger) root_log_message
      (collab Sample.initial) = (w1, Return (VStr root_log_message))
  ∧ root Sample.get_logger Sample.hello_world Sample.initial =
    root Sample.echo_logger Sample.hello_world Sample.initial.
Proof.
  intros w1. split; [reflexivity|]. split; [reflexivity|].
  apply (root_ignores_logger_result Sample.get_logger Sample.echo_logger
           Sample.hello_world Sample.initial w1 VNone
           (VStr root_log_message)); reflexivity.
Defined.

(** A greeting provider returning [None] gives [{"message": None}]. *)
Lemma root_passes_any_value_witness :
  let w1 := Sample.MkWorld
              [("greet-FastAPI-logger", root_log_message)] 0 in
  info (logger Sample.get_logger) root_log_message
    (collab Sample.initial) = (w1, Return VNone)
  ∧ Sample.none_hello_world w1 = (w1, Return VNone)
  ∧ ∃ d : gmap string value,
      (root Sample.get_logger Sample.none_hello_world Sample.initial).2 =
        Return (VDict d)
      ∧ d !! "message" = Some VNone.
Proof.
  intros w1. split; [reflexivity|]. split; [reflexivity|].
  destruct (root_passes_any_value Sample.get_logger
              Sample.none_hello_world Sample.initial w1 w1 VNone VNone
              eq_refl eq_refl) as (d & Hout & Hmsg & _).
  exists d. split; [exact Hout | exact Hmsg].
Defined.

(** A [q] passed as [None] and a [q] left out give the same mapping, and
    that is all two equal mappings can hide. *)
Lemma read_item_lossless_witness :
  (read_item (exn:=Sample.exn) (VInt 5) (Some VNone) Sample.initial).2 =
  (read_item (VInt 5) None Sample.initial).2
  ∧ VInt 5 = VInt 5
  ∧ default VNone (Some VNone) = default VNone None.
Proof.
  split; [reflexivity|].
  apply (read_item_lossless (exn:=Sample.exn) (VInt 5) (VInt 5)
           (Some VNone) None Sample.initial Sample.initial).
  reflexivity.
Defined.
